(** * Grod coordination layer: a shallow embedding and its properties

    The development embeds five parts of the repository:
    - the budget manager       ([createBudgetManager], utils/budget-manager.js),
    - the job orchestrator     ([createOrchestrator], orchestration/job-orchestrator.js),
    - the event bus            ([createEventBus], events/event-bus.js),
    - the optimization pipeline ([OptimizationPipeline], orchestration/optimization-pipeline.js),
    - the model gateway        ([createModelGateway], models/model-gateway.js).

    Conventions of the embedding.
    - A JS [number] is an exact rational ([Qc], canonical fractions, so that
      Leibniz equality is numeric equality).  [NaN] and the infinities are
      not represented, and no rounding happens except where the source
      rounds itself ([toFixed]).
    - [async]/[await] code is run to completion, one call after the other:
      every operation is a function from the state before to the state
      after, paired with its result.
    - A JS object used as a dictionary, and a [Map], is a [gmap] over
      strings.
    - A call that may throw returns a [Completion]. *)

From Stdlib Require Import Ascii String QArith Qabs Qcanon Qround Lqa.
From stdpp Require Import gmap strings pretty.

Local Open Scope string_scope.

(** ** JavaScript values *)

Module JS.

(** Normal return or a thrown [Error] carrying its [message]. *)
Inductive Completion (A : Type) : Type :=
| Return (a : A)
| Throw (message : string).
Arguments Return {A} a.
Arguments Throw {A} message.

(** Decimal literals of the sources, as canonical rationals. *)
Definition num (q : Q) : Qc := Q2Qc q.

(** [x > y] on numbers. *)
Definition gt (x y : Qc) : bool := bool_decide (y < x)%Qc.


(** A string is falsy exactly when it is empty. *)
Definition truthy (s : string) : bool :=
  match s with
  | EmptyString => false
  | String _ _ => true
  end.

(** The values that travel through payloads, inputs and outputs.  Object
    properties are kept in insertion order. *)
#[local] Set Warnings "-register-all".
Inductive Value : Type :=
| Undefined
| Null
| Bool (b : bool)
| Num (n : Z)
| Str (s : string)
| Arr (items : list Value)
| Obj (props : list (string * Value)).

Definition dquote : ascii := ascii_of_N 34.
Definition backslash : ascii := ascii_of_N 92.

Definition hex_digit (n : N) : ascii :=
  match n with
  | 0 => "0" | 1 => "1" | 2 => "2" | 3 => "3" | 4 => "4" | 5 => "5"
  | 6 => "6" | 7 => "7" | 8 => "8" | 9 => "9" | 10 => "a" | 11 => "b"
  | 12 => "c" | 13 => "d" | 14 => "e" | _ => "f"
  end%N%char.

(** One character of a string literal as [JSON.stringify] writes it. *)
Definition escape_char (c : ascii) : string :=
  let n := N_of_ascii c in
  if (n =? 34)%N then String backslash (String dquote EmptyString)
  else if (n =? 92)%N then String backslash (String backslash EmptyString)
  else if (n =? 8)%N then "\b"
  else if (n =? 12)%N then "\f"
  else if (n =? 10)%N then "\n"
  else if (n =? 13)%N then "\r"
  else if (n =? 9)%N then "\t"
  else if (n <? 32)%N then
    "\u00" ++ String (hex_digit (n / 16))
                (String (hex_digit (n mod 16)) EmptyString)
  else String c EmptyString.

Fixpoint escape (s : string) : string :=
  match s with
  | EmptyString => EmptyString
  | String c rest => escape_char c ++ escape rest
  end.

Definition quote (s : string) : string :=
  String dquote (escape s ++ String dquote EmptyString).


Fixpoint join (sep : string) (parts : list string) : string :=
  match parts with
  | [] => EmptyString
  | [p] => p
  | p :: rest => p ++ sep ++ join sep rest
  end.

(** [JSON.stringify]: [None] is the result [undefined].  Inside an array
    [undefined] is written [null]; inside an object the property is
    dropped. *)
Fixpoint stringify (v : Value) : option string :=
  match v with
  | Undefined => None
  | Null => Some "null"
  | Bool true => Some "true"
  | Bool false => Some "false"
  | Num n => Some (pretty n)
  | Str s => Some (quote s)
  | Arr items =>
      Some ("[" ++ join ","
              (List.map (fun x => default "null" (stringify x)) items) ++ "]")
  | Obj props =>
      Some ("{" ++ join ","
              (List.flat_map
                 (fun kv => match stringify (snd kv) with
                            | Some s => [quote (fst kv) ++ ":" ++ s]
                            | None => []
                            end) props) ++ "}")
  end.


(** The result objects [{ success, error?, remaining?, message? }] that the
    budget manager and the orchestrator hand back. *)
Record Result : Type := mkResult {
  success : bool;
  error : option string;
  remaining : option Qc;
  message : option string;
}.

Definition ok : Result := mkResult true None None None.
Definition failure (msg : string) : Result := mkResult false (Some msg) None None.

End JS.

(** ** Budget manager *)

Module Budget.


Record BudgetScope : Type := mkScope {
  id : string;
  limit : Qc;
  spent : Qc;
  currency : string;
}.



(** The persistence layer the manager is given.  It is the [Map]-backed
    store of the manager's test suite: [getBudget] reads the map,
    [upsertBudget] overwrites an entry, [updateBudget] merges the updates
    into the current entry.  The manager calls [updateBudget] only on a
    scope it has just read, so the entry is there. *)
Module store.
Definition getBudget (budgets : gmap string BudgetScope) (scopeId : string)
  : option BudgetScope := budgets !! scopeId.


End store.

Definition canSpend (budgets : gmap string BudgetScope) (scopeId : string)
    (estimatedCost : Qc) : JS.Result :=
  match store.getBudget budgets scopeId with
  | None => JS.failure "No budget found"
  | Some budget =>
      if JS.gt (spent budget + estimatedCost) (limit budget)
      then JS.failure "Budget exceeded"
      else JS.ok
  end.










End Budget.

(** ** Job orchestrator *)

Module Orchestrator.

Inductive JOB_STATUS : Type := CREATED | RUNNING | PAUSED | COMPLETED | FAILED.

(** The string each status stands for. *)
Definition status_string (s : JOB_STATUS) : string :=
  match s with
  | CREATED => "created"
  | RUNNING => "running"
  | PAUSED => "paused"
  | COMPLETED => "completed"
  | FAILED => "failed"
  end.

#[global] Instance JOB_STATUS_eq_dec : EqDecision JOB_STATUS.
Proof. solve_decision. Defined.

Record JobPermissions : Type := mkPermissions {
  allowTools : bool;
  requireApproval : bool;
  maxSteps : Z;
}.

Record JobTiming : Type := mkTiming {
  created : Z;
  started : option Z;
  completed : option Z;
}.

Record Job : Type := mkJob {
  id : string;
  status : JOB_STATUS;
  context : gmap string JS.Value;
  permissions : JobPermissions;
  history : list JS.Value;
  timing : JobTiming;
}.

(** What the orchestrator acts on: the job store it was given, and the
    events it has handed to [eventBus.emit], oldest first, each with the
    [jobId] of its payload. *)
Record World : Type := mkWorld {
  jobs : gmap string Job;
  emitted : list (string * string);
}.

(** The job store: [saveJob] files the job under its own id, [getJob]
    reads the entry. *)
Module store.
Definition saveJob (w : World) (job : Job) : World :=
  mkWorld (<[id job := job]> (jobs w)) (emitted w).
Definition getJob (w : World) (jobId : string) : option Job :=
  jobs w !! jobId.
End store.

Module eventBus.
Definition emit (w : World) (name jobId : string) : World :=
  mkWorld (jobs w) (emitted w ++ [(name, jobId)]).
End eventBus.

(** [!job.timing.started]: no start time yet, or the start time [0]. *)
Definition not_started (t : JobTiming) : bool :=
  match started t with
  | None => true
  | Some z => bool_decide (z = 0%Z)
  end.

Section WithBudgetManager.

(** [budgetManager.canSpend(jobId)], the read-only pre-check of the
    injected budget manager. *)
Variable canSpend : string → JS.Result.

(** [generated] is what [generateId()] returns for this call and [now]
    what [Date.now()] returns. *)
Definition createJob (w : World) (generated : string) (now : Z)
    (initialContext : option (gmap string JS.Value))
    (permissions : option JobPermissions) : World * string :=
  let job :=
    {| id := generated;
       status := CREATED;
       context := default ∅ initialContext;
       permissions := default (mkPermissions false true 10) permissions;
       history := [];
       timing := mkTiming now None None |} in
  (store.saveJob w job, id job).

Definition startJob (w : World) (now : Z) (jobId : string)
    : World * JS.Result :=
  match store.getJob w jobId with
  | None => (w, JS.failure "Job not found")
  | Some job =>
      if bool_decide (status job ≠ CREATED) && bool_decide (status job ≠ PAUSED)
      then (w, JS.failure
                 ("Invalid state transition from " ++ status_string (status job)))
      else
        (* Check budget *)
        let budgetOk := canSpend jobId in
        if negb (JS.success budgetOk) then (w, budgetOk)
        else
          (* Update state *)
          let timing' :=
            if not_started (timing job)
            then mkTiming (created (timing job)) (Some now)
                   (completed (timing job))
            else timing job in
          let job' :=
            mkJob (id job) RUNNING (context job) (permissions job)
              (history job) timing' in
          let w1 := store.saveJob w job' in
          let w2 := eventBus.emit w1 "job_started" jobId in
          (w2, JS.ok)
  end.

Definition pauseJob (w : World) (jobId : string) : World * JS.Result :=
  match store.getJob w jobId with
  | None => (w, JS.failure "Job not found")
  | Some job =>
      if bool_decide (status job ≠ RUNNING)
      then (w, JS.failure "Only running jobs can be paused")
      else
        let job' :=
          mkJob (id job) PAUSED (context job) (permissions job)
            (history job) (timing job) in
        let w1 := store.saveJob w job' in
        let w2 := eventBus.emit w1 "job_paused" jobId in
        (w2, JS.ok)
  end.

End WithBudgetManager.

End Orchestrator.

(** ** Event bus *)

Module EventBus.

Record TraceContext : Type := mkTrace {
  traceId : string;
  spanId : string;
  parentId : option string;
}.

(** [Partial<TraceContext>]: any of the fields may be missing. *)
Record PartialTraceContext : Type := mkPartial {
  partial_traceId : option string;
  partial_spanId : option string;
  partial_parentId : option string;
}.

(** A full trace context passed where a partial one is expected. *)
Definition as_partial (t : TraceContext) : PartialTraceContext :=
  mkPartial (Some (traceId t)) (Some (spanId t)) (parentId t).

Record EventMetadata : Type := mkMeta {
  timestamp : Z;
  source : string;
}.

Record Event : Type := mkEvent {
  id : string;
  type : string;
  payload : JS.Value;
  trace : TraceContext;
  meta : EventMetadata;
}.

(** [a || b] for an optional string [a]. *)
Definition or_else (a : option string) (b : string) : string :=
  match a with
  | Some s => if JS.truthy s then s else b
  | None => b
  end.

(** [uuid] is what [uuidv4()] returns for this call and [now] what
    [Date.now()] returns.  A missing [parentContext] is the default [{}]. *)
Definition createEvent (type : string) (payload : JS.Value) (source : string)
    (parentContext : option PartialTraceContext) (uuid : string) (now : Z)
    : Event :=
  let parentContext := default (mkPartial None None None) parentContext in
  let spanId := uuid in
  {| id := spanId;
     type := type;
     payload := payload;
     trace := {| traceId := or_else (partial_traceId parentContext) spanId;
                 spanId := spanId;
                 parentId := partial_spanId parentContext |};
     meta := {| timestamp := now; source := source |} |}.

(** What a subscriber does with an event: it returns (or its promise
    resolves), it throws before returning, or it returns a promise that
    rejects. *)
Inductive Outcome : Type :=
| Completes
| Throws (message : string)
| Rejects (message : string).

(** A subscriber, with a name under which its calls are recorded. *)
Record Handler : Type := mkHandler {
  name : string;
  behaviour : Event → Outcome;
}.

(** What is registered on the underlying emitter: the [wrappedHandler]
    closure that [on] builds around a handler, or the handler itself, as
    [onAny] registers it. *)
Inductive Listener : Type :=
| wrappedHandler (type : string) (handler : Handler)
| bare (handler : Handler).

Inductive LogLine : Type :=
| debug (text : string)
| error (text : string) (err : string) (eventId : string).

Record Bus : Type := mkBus {
  (** the emitter's listeners per event name, in registration order *)
  listeners : gmap string (list Listener);
  (** what the logger has been given, oldest first *)
  logged : list LogLine;
  (** the handler calls made so far: handler name and event id *)
  called : list (string * string);
  (** rejections of promises nobody awaits *)
  unhandledRejections : list string;
}.

Definition createEventBus : Bus := mkBus ∅ [] [] [].

Definition log (b : Bus) (l : LogLine) : Bus :=
  mkBus (listeners b) (logged b ++ [l]) (called b) (unhandledRejections b).

Definition record_call (b : Bus) (h : Handler) (e : Event) : Bus :=
  mkBus (listeners b) (logged b) (called b ++ [(name h, id e)])
    (unhandledRejections b).

Definition record_rejection (b : Bus) (message : string) : Bus :=
  mkBus (listeners b) (logged b) (called b)
    (unhandledRejections b ++ [message]).

(** One listener called with the event.  The wrapped handler runs inside
    [try]/[catch] with its promise awaited; the bare one does not. *)
Definition invoke (l : Listener) (e : Event) (b : Bus)
    : Bus * JS.Completion unit :=
  match l with
  | wrappedHandler type handler =>
      let b1 := record_call b handler e in
      match behaviour handler e with
      | Completes => (b1, JS.Return tt)
      | Throws err | Rejects err =>
          (log b1 (error ("Error in handler for " ++ type) err (id e)),
           JS.Return tt)
      end
  | bare handler =>
      let b1 := record_call b handler e in
      match behaviour handler e with
      | Completes => (b1, JS.Return tt)
      | Throws err => (b1, JS.Throw err)
      | Rejects err => (record_rejection b1 err, JS.Return tt)
      end
  end.

(** The listeners are called one after the other; the first one that
    throws ends the loop. *)
Fixpoint dispatch (ls : list Listener) (e : Event) (b : Bus)
    : Bus * JS.Completion unit :=
  match ls with
  | [] => (b, JS.Return tt)
  | l :: rest =>
      match invoke l e b with
      | (b1, JS.Return _) => dispatch rest e b1
      | (b1, JS.Throw err) => (b1, JS.Throw err)
      end
  end.

(** [emitter.emit(name, event)] of Node's [EventEmitter].  An ["error"]
    event without a listener is thrown by the emitter itself. *)
Definition emitter_emit (b : Bus) (name : string) (e : Event)
    : Bus * JS.Completion unit :=
  match default [] (listeners b !! name) with
  | [] => if bool_decide (name = "error")
          then (b, JS.Throw "Unhandled error.")
          else (b, JS.Return tt)
  | ls => dispatch ls e b
  end.

Definition emitter_on (b : Bus) (name : string) (l : Listener) : Bus :=
  mkBus (<[name := (default [] (listeners b !! name) ++ [l])%list]> (listeners b))
    (logged b) (called b) (unhandledRejections b).

(** A missing [source] is the default ["system"]. *)
Definition emit (b : Bus) (type : string) (payload : JS.Value)
    (source : option string) (parentContext : option PartialTraceContext)
    (uuid : string) (now : Z) : Bus * JS.Completion Event :=
  let event :=
    createEvent type payload (default "system" source) parentContext uuid now in
  let b0 :=
    log b (debug ("[Event] " ++ type ++ " | Trace: " ++ traceId (trace event))) in
  (* Emit strictly typed event *)
  match emitter_emit b0 type event with
  | (b1, JS.Throw err) => (b1, JS.Throw err)
  | (b1, JS.Return _) =>
      (* Emit catch-all for firehose/logging *)
      match emitter_emit b1 "*" event with
      | (b2, JS.Throw err) => (b2, JS.Throw err)
      | (b2, JS.Return _) => (b2, JS.Return event)
      end
  end.

Definition on (b : Bus) (type : string) (handler : Handler) : Bus :=
  emitter_on b type (wrappedHandler type handler).

Definition onAny (b : Bus) (handler : Handler) : Bus :=
  emitter_on b "*" (bare handler).

(** Listeners registered through [on] only. *)
Definition all_wrapped (ls : list Listener) : Prop :=
  Forall (λ l, match l with wrappedHandler _ _ => True | bare _ => False end) ls.

(** The calls that running all of [ls] on [e] records. *)
Definition calls_of (e : Event) (ls : list Listener) : list (string * string) :=
  List.map (λ l, match l with
                 | wrappedHandler _ h | bare h => (name h, id e)
                 end) ls.

End EventBus.

(** ** Optimization pipeline *)

Module Pipeline.

Inductive Status : Type := analyzing | shadow_testing | optimized.

#[global] Instance Status_eq_dec : EqDecision Status.
Proof. solve_decision. Defined.

Record OptimizationCandidate : Type := mkCandidate {
  taskType : string;
  frequency : Qc;
  avgCost : Qc;
  status : Status;
}.

(** A JS function: its source text ([fn.toString()]) and what a call
    does. *)
Record Function : Type := mkFunction {
  toString : string;
  apply : JS.Value → JS.Completion JS.Value;
}.

Record DeterministicFunction : Type := mkDeterministic {
  id : string;
  fn_taskType : string;
  code : string;
  testCases : list string;
  confidenceScore : Qc;
  implementation : Function;
}.

Inductive LogLine : Type :=
| debug (text : string)
| info (text : string)
| error (text : string) (err : string).

Record State : Type := mkState {
  optimizationThreshold : Qc;
  candidates : gmap string OptimizationCandidate;
  activeFunctions : gmap string DeterministicFunction;
  shadowFunctions : gmap string DeterministicFunction;
  taskHistory : gmap string (list (JS.Value * JS.Value));
  logged : list LogLine;
}.

(** The payload of a ["JOB_COMPLETED"] event, destructured. *)
Record Completion : Type := mkCompletion {
  payload_taskType : option string;
  input : JS.Value;
  output : JS.Value;
  cost : option Qc;
}.

(** [options.optimizationThreshold || 100] *)
Definition new (optimizationThreshold : option Qc) : State :=
  let threshold :=
    match optimizationThreshold with
    | Some t => if bool_decide (t = 0%Qc) then JS.num 100 else t
    | None => JS.num 100
    end in
  mkState threshold ∅ ∅ ∅ ∅ [].

Definition log (st : State) (l : LogLine) : State :=
  mkState (optimizationThreshold st) (candidates st) (activeFunctions st)
    (shadowFunctions st) (taskHistory st) (logged st ++ [l]).

Definition set_candidates (st : State)
    (c : gmap string OptimizationCandidate) : State :=
  mkState (optimizationThreshold st) c (activeFunctions st)
    (shadowFunctions st) (taskHistory st) (logged st).

Definition set_activeFunctions (st : State)
    (m : gmap string DeterministicFunction) : State :=
  mkState (optimizationThreshold st) (candidates st) m
    (shadowFunctions st) (taskHistory st) (logged st).

Definition set_shadowFunctions (st : State)
    (m : gmap string DeterministicFunction) : State :=
  mkState (optimizationThreshold st) (candidates st) (activeFunctions st)
    m (taskHistory st) (logged st).


Definition with_status (c : OptimizationCandidate) (s : Status)
    : OptimizationCandidate :=
  mkCandidate (taskType c) (frequency c) (avgCost c) s.


(** [candidates.get(taskType).status = s] when the candidate is there,
    a fresh candidate with that status otherwise. *)
Definition mark (st : State) (taskType : string) (s : Status) : State :=
  match candidates st !! taskType with
  | None =>
      set_candidates st
        (<[taskType := mkCandidate taskType 0%Qc 0%Qc s]> (candidates st))
  | Some c =>
      set_candidates st (<[taskType := with_status c s]> (candidates st))
  end.

(** [now] is what [Date.now()] returns for this call. *)
Definition registerFunction (st : State) (taskType : string) (fn : Function)
    (active : bool) (now : Z) : State * string :=
  let deterministicFn :=
    {| id := "fn_" ++ pretty now ++ "_" ++ taskType;
       fn_taskType := taskType;
       code := toString fn;
       testCases := [];
       confidenceScore := if active then JS.num 1.0 else JS.num 0.0;
       implementation := fn |} in
  let st1 :=
    if active
    then mark (set_activeFunctions st
                 (<[taskType := deterministicFn]> (activeFunctions st)))
           taskType optimized
    else mark (set_shadowFunctions st
                 (<[taskType := deterministicFn]> (shadowFunctions st)))
           taskType shadow_testing in
  (st1, id deterministicFn).








Definition getOptimizedFunction (st : State) (taskType : string)
    : option Function :=
  match activeFunctions st !! taskType with
  | Some record => Some (implementation record)
  | None => None
  end.

End Pipeline.

(** ** Model gateway *)

Module Gateway.

Module CAPABILITY.
Definition TOOLS : string := "tools".
Definition VISION : string := "vision".
Definition JSON_MODE : string := "json_mode".
End CAPABILITY.

Record CostConfig : Type := mkCost {
  input1k : Qc;
  output1k : Qc;
}.

Record ModelConfig : Type := mkModel {
  id : string;
  provider : string;
  contextWindow : Z;
  capabilities : list string;
  cost : option CostConfig;
}.

Record ModelRequest : Type := mkRequest {
  modelId : string;
  messages : JS.Value;
  tools : option (list JS.Value);
  taskType : option string;
}.

(** The [usage] object of a provider's response. *)
Record Usage : Type := mkUsage {
  promptTokens : Qc;
  completionTokens : Qc;
  totalTokens : Qc;
}.

(** What [generate] resolves to. *)
Record RawResponse : Type := mkRaw {
  raw_content : string;
  raw_toolCalls : option (list JS.Value);
  raw_usage : option Usage;
}.

(** [{ ...rawResponse.usage, cost }]: the provider's counts, when it sent
    any, and the computed cost. *)
Record UsageStats : Type := mkStats {
  counts : option Usage;
  usage_cost : Qc;
}.

Record ResponseMeta : Type := mkResponseMeta {
  meta_modelId : string;
  meta_provider : string;
  latencyMs : Z;
  usage : UsageStats;
}.

Record ModelResponseData : Type := mkData {
  content : option string;
  toolCalls : option (list JS.Value);
}.

Record ModelResponse : Type := mkResponse {
  success : bool;
  data : option ModelResponseData;
  meta : option ResponseMeta;
  error : option string;
}.

(** A provider queue: [enqueue] is given the thunk that performs the
    request and resolves or rejects; [client.generate] is the provider
    call itself, when the queue carries a client. *)
Record ProviderQueue : Type := mkQueue {
  enqueue : (unit → JS.Completion RawResponse) → JS.Completion RawResponse;
  client_generate : option (ModelRequest → JS.Completion RawResponse);
}.

(** What a call does besides returning, in the order it happens. *)
Inductive Effect : Type :=
| logger_info (text : string)
| logger_error (text : string)
| queue_enqueue (provider : string)
| recordLatency (latencyMs : Z) (modelId provider : string)
| recordThroughput (tokens : Qc) (latencyMs : Z) (modelId provider : string)
| recordError (modelId provider : string)
| logWorkDone (jobId : string) (cost : Qc) (tokens : option Qc) (model : string).

Record Deps : Type := mkDeps {
  models : gmap string ModelConfig;
  providerQueues : gmap string ProviderQueue;
  performanceMonitor : bool;
  jobLogger : bool;
  optimizationPipeline : option Pipeline.State;
}.

Definition rejected (message : string) : ModelResponse :=
  mkResponse false None None (Some message).

Section WithDeps.

Variable deps : Deps.

(** Internal helper: validate request against capabilities.  A request
    specifies tools when its [tools] property is there (an array, also
    an empty one, is truthy). *)
Definition validateCapabilities (modelId : string) (request : ModelRequest)
    : JS.Result :=
  match models deps !! modelId with
  | None => JS.failure "Unknown model"
  | Some modelConf =>
      if bool_decide (is_Some (tools request))
         && negb (bool_decide (CAPABILITY.TOOLS ∈ capabilities modelConf))
      then JS.failure "Model does not support tools"
      else JS.ok
  end.

(** [Number(x.toFixed(6))]: [x] rounded to six decimals, a tie going
    away from zero; a number of magnitude [10^21] or more is written
    in full and comes back as it is. *)
Definition toFixed6 (x : Qc) : Qc :=
  let scale := inject_Z (10 ^ 6) in
  let a := Qabs x in
  if Qle_bool (inject_Z (10 ^ 21)) a then x
  else
    let n := Qfloor (a * scale + (1 # 2)) in
    let r := Q2Qc (inject_Z n / scale) in
    if Qle_bool 0 x then r else (- r)%Qc.

(** Internal helper: calculate cost. *)
Definition calculateCost (modelId : string) (usage : option Usage) : Qc :=
  match models deps !! modelId with
  | None => 0%Qc
  | Some modelConf =>
      match cost modelConf, usage with
      | Some c, Some u =>
          let inputCost := (promptTokens u / JS.num 1000 * input1k c)%Qc in
          let outputCost := (completionTokens u / JS.num 1000 * output1k c)%Qc in
          toFixed6 (inputCost + outputCost)%Qc
      | _, _ => 0%Qc
      end
  end.

(** [typeof result === "string" ? result : JSON.stringify(result)] *)
Definition as_content (result : JS.Value) : option string :=
  match result with
  | JS.Str s => Some s
  | _ => JS.stringify result
  end.

(** The answer built from the result of a deterministic substitute. *)
Definition bypass_response (result : JS.Value) (latency : Z) : ModelResponse :=
  mkResponse true
    (Some (mkData (as_content result) None))
    (Some (mkResponseMeta "deterministic" "internal" latency
             (mkStats (Some (mkUsage 0%Qc 0%Qc 0%Qc)) 0%Qc)))
    None.

(** [s || d] on strings. *)
Definition or_default (s d : string) : string :=
  if JS.truthy s then s else d.

(** Steps 1 and 2 of [call]: validation, then the provider queue. *)
Definition provider_path (request : ModelRequest) (jobId : option string)
    (startTime endTime : Z) : ModelResponse * list Effect :=
  (* 1. Validate *)
  let validation := validateCapabilities (modelId request) request in
  if negb (JS.success validation)
  then (mkResponse false None None (JS.error validation), [])
  else
      (* 2. Route to Provider Queue; a model that passed validation is
         configured *)
      match models deps !! modelId request with
      | None => (rejected "Cannot read properties of undefined (reading 'provider')", [])
      | Some modelConf =>
          match providerQueues deps !! provider modelConf with
          | None =>
              let errorMsg := "No queue for provider: " ++ provider modelConf in
              (rejected errorMsg, [logger_error errorMsg])
          | Some queue =>
              let thunk (_ : unit) :=
                match client_generate queue with
                | Some generate => generate request
                | None =>
                    JS.Throw
                      "Cannot read properties of undefined (reading 'generate')"
                end in
              match enqueue queue thunk with
              | JS.Return rawResponse =>
                  let latency := (endTime - startTime)%Z in
                  (* 3. Normalize & Cost *)
                  let cost := calculateCost (modelId request) (raw_usage rawResponse) in
                  let meta :=
                    mkResponseMeta (modelId request) (provider modelConf)
                      latency (mkStats (raw_usage rawResponse) cost) in
                  (* 4. Record Metrics *)
                  let metrics :=
                    if performanceMonitor deps then
                      recordLatency latency (modelId request) (provider modelConf)
                      :: match raw_usage rawResponse with
                         | Some u =>
                             if bool_decide (totalTokens u = 0%Qc) then []
                             else [recordThroughput (totalTokens u) latency
                                     (modelId request) (provider modelConf)]
                         | None => []
                         end
                    else [] in
                  (* 5. Log Work (if jobId provided and jobLogger exists) *)
                  let work :=
                    match jobId with
                    | Some j =>
                        if JS.truthy j && jobLogger deps
                        then [logWorkDone j cost
                                (totalTokens <$> raw_usage rawResponse)
                                (modelId request)]
                        else []
                    | None => []
                    end in
                  (mkResponse true
                     (Some (mkData (Some (raw_content rawResponse))
                              (raw_toolCalls rawResponse)))
                     (Some meta) None,
                   (queue_enqueue (provider modelConf) :: metrics ++ work)%list)
              | JS.Throw message =>
                  (rejected (or_default message "Unknown error during model call"),
                   (queue_enqueue (provider modelConf)
                    :: logger_error ("Model Gateway Error: " ++ message)
                    :: (if performanceMonitor deps
                        then [recordError (modelId request) (provider modelConf)]
                        else []))%list)
              end
          end
      end.

(** Main public method.  [startTime] and [endTime] are the two readings
    of [Date.now()] that the path taken makes. *)
Definition call (request : ModelRequest) (jobId : option string)
    (startTime endTime : Z) : ModelResponse * list Effect :=
  (* 0. Check for Optimized Deterministic Bypass *)
  let optimizedFn :=
    match taskType request, optimizationPipeline deps with
    | Some task, Some pipeline =>
        if JS.truthy task then Pipeline.getOptimizedFunction pipeline task
        else None
    | _, _ => None
    end in
  match optimizedFn, taskType request with
  | Some fn, Some task =>
      match Pipeline.apply fn (messages request) with
      | JS.Return result =>
          (bypass_response result (endTime - startTime),
           [logger_info ("Using deterministic bypass for taskType: " ++ task)])
      | JS.Throw message =>
          let (response, effects) :=
            provider_path request jobId startTime endTime in
          (response,
           logger_error ("Deterministic bypass failed for " ++ task ++ ": "
                         ++ message ++ ". Falling back to LLM.") :: effects)
      end
  | _, _ => provider_path request jobId startTime endTime
  end.

End WithDeps.


(** The provider was asked: the call reached some queue's [enqueue]. *)
Definition contacts_provider (effects : list Effect) : bool :=
  existsb (fun e => match e with queue_enqueue _ => true | _ => false end)
    effects.

End Gateway.
(** * Properties *)

(** ** Numbers *)






(** ** Budget manager *)

Section BudgetFacts.
Import Budget.

Implicit Types (budgets : gmap string BudgetScope) (amount : Qc).









End BudgetFacts.







(** ** Job orchestrator *)

Section OrchestratorFacts.
Import Orchestrator.

Variable canSpend : string → JS.Result.

(** The two guards of [startJob], read as propositions. *)
Lemma start_guard (s : JOB_STATUS) :
  bool_decide (s ≠ CREATED) && bool_decide (s ≠ PAUSED) = false
  ↔ s = CREATED ∨ s = PAUSED.
Proof. destruct s; compute; intuition congruence. Qed.

Lemma pause_guard (s : JOB_STATUS) :
  bool_decide (s ≠ RUNNING) = false ↔ s = RUNNING.
Proof. destruct s; compute; intuition congruence. Qed.

Lemma startJob_failure_keeps_world w now jobId :
  JS.success (startJob canSpend w now jobId).2 = false →
  (startJob canSpend w now jobId).1 = w.
Proof.
  unfold startJob.
  destruct (store.getJob w jobId) as [job|]; [|reflexivity].
  destruct (_ && _); [reflexivity|].
  destruct (JS.success (canSpend jobId)); [discriminate | reflexivity].
Qed.

Lemma pauseJob_failure_keeps_world w jobId :
  JS.success (pauseJob w jobId).2 = false → (pauseJob w jobId).1 = w.
Proof.
  unfold pauseJob.
  destruct (store.getJob w jobId) as [job|]; [|reflexivity].
  destruct (bool_decide _); [reflexivity | discriminate].
Qed.

(** A start from [created] or [paused] with the budget check passed does
    go through: the stored job is running and [job_started] is emitted. *)
Lemma startJob_success w now jobId job :
  jobs w !! jobId = Some job →
  id job = jobId →
  status job = CREATED ∨ status job = PAUSED →
  JS.success (canSpend jobId) = true →
  (startJob canSpend w now jobId).2 = JS.ok
  ∧ (status <$> jobs (startJob canSpend w now jobId).1 !! jobId) = Some RUNNING
  ∧ emitted (startJob canSpend w now jobId).1
    = (emitted w ++ [("job_started", jobId)])%list.
Proof.
  intros Hjob Hid Hstatus Hbudget. unfold startJob, store.getJob.
  rewrite Hjob. apply start_guard in Hstatus. rewrite Hstatus, Hbudget.
  cbn. rewrite Hid, lookup_insert_eq. done.
Qed.

End OrchestratorFacts.

(** C5.  A failed lifecycle transition leaves the stored jobs as they were.
    [startJob] succeeds only for a job whose status is [created] or
    [paused]; from any other status it fails with the invalid-transition
    message and changes nothing; when [canSpend(jobId)] fails, [startJob]
    returns that very result and changes nothing.  [pauseJob] on a job that
    is not [running] fails and changes nothing. *)
Theorem failed_transition_keeps_job
    (canSpend : string → JS.Result) (w : Orchestrator.World) (now : Z)
    (jobId : string) :
  let start := Orchestrator.startJob canSpend w now jobId in
  let pause := Orchestrator.pauseJob w jobId in
  (JS.success start.2 = false → start.1 = w)
  ∧ (JS.success start.2 = true →
       ∃ job, Orchestrator.jobs w !! jobId = Some job
              ∧ (Orchestrator.status job = Orchestrator.CREATED
                 ∨ Orchestrator.status job = Orchestrator.PAUSED))
  ∧ (∀ job, Orchestrator.jobs w !! jobId = Some job →
       Orchestrator.status job ≠ Orchestrator.CREATED →
       Orchestrator.status job ≠ Orchestrator.PAUSED →
       start = (w, JS.failure ("Invalid state transition from "
                               ++ Orchestrator.status_string
                                    (Orchestrator.status job))))
  ∧ (∀ job, Orchestrator.jobs w !! jobId = Some job →
       Orchestrator.status job = Orchestrator.CREATED
       ∨ Orchestrator.status job = Orchestrator.PAUSED →
       JS.success (canSpend jobId) = false →
       start = (w, canSpend jobId))
  ∧ (JS.success pause.2 = false → pause.1 = w)
  ∧ (∀ job, Orchestrator.jobs w !! jobId = Some job →
       Orchestrator.status job ≠ Orchestrator.RUNNING →
       pause = (w, JS.failure "Only running jobs can be paused")).
Proof.
  cbn zeta. split; [apply startJob_failure_keeps_world|].
  split.
  { unfold Orchestrator.startJob, Orchestrator.store.getJob.
    destruct (Orchestrator.jobs w !! jobId) as [job|]; [|discriminate].
    destruct (_ && _) eqn:Hguard; [discriminate|].
    intros _. exists job. split; [reflexivity|]. by apply start_guard. }
  split.
  { intros job Hjob Hc Hp.
    unfold Orchestrator.startJob, Orchestrator.store.getJob. rewrite Hjob.
    rewrite !bool_decide_eq_true_2 by done. reflexivity. }
  split.
  { intros job Hjob Hstatus Hbudget.
    unfold Orchestrator.startJob, Orchestrator.store.getJob. rewrite Hjob.
    apply start_guard in Hstatus. rewrite Hstatus, Hbudget. reflexivity. }
  split; [apply pauseJob_failure_keeps_world|].
  intros job Hjob Hr.
  unfold Orchestrator.pauseJob, Orchestrator.store.getJob. rewrite Hjob.
  rewrite bool_decide_eq_true_2 by done. reflexivity.
Qed.

Lemma failed_transition_keeps_job_witness :
  let canSpend := fun scopeId => Budget.canSpend ∅ scopeId 0%Qc in
  let w := (Orchestrator.createJob
              (Orchestrator.mkWorld ∅ []) "test-job-id" 1700000000000
              None None).1 in
  Orchestrator.startJob canSpend w 1700000000001 "test-job-id"
    = (w, JS.failure "No budget found")
  ∧ Orchestrator.pauseJob w "test-job-id"
    = (w, JS.failure "Only running jobs can be paused").
Proof.
  intros canSpend w.
  destruct (failed_transition_keeps_job canSpend w 1700000000001 "test-job-id")
    as (_ & _ & _ & Hbudget & _ & Hpause).
  split.
  - refine (Hbudget _ _ _ _); [vm_compute; reflexivity | left; reflexivity
                              | vm_compute; reflexivity].
  - refine (Hpause _ _ _); [vm_compute; reflexivity | discriminate].
Defined.

(** C10.  [createJob] returns the id of a job that is now in the store, with
    status [created], an empty history and the given initial context (the
    empty mapping when none is given); without a [permissions] argument the
    stored permissions are [allowTools = false], [requireApproval = true],
    [maxSteps = 10]. *)
Theorem createJob_stores_created_job
    (w : Orchestrator.World) (generated : string) (now : Z)
    (initialContext : option (gmap string JS.Value))
    (permissions : option Orchestrator.JobPermissions) :
  let after := (Orchestrator.createJob w generated now initialContext permissions).1 in
  let jobId := (Orchestrator.createJob w generated now initialContext permissions).2 in
  ∃ job,
    Orchestrator.jobs after !! jobId = Some job
    ∧ Orchestrator.id job = jobId
    ∧ Orchestrator.status job = Orchestrator.CREATED
    ∧ Orchestrator.history job = []
    ∧ Orchestrator.context job
      = match initialContext with Some ctx => ctx | None => ∅ end
    ∧ Orchestrator.permissions job
      = match permissions with
        | Some p => p
        | None => Orchestrator.mkPermissions false true 10
        end.
Proof.
  cbn zeta. unfold Orchestrator.createJob, Orchestrator.store.saveJob.
  cbn [fst snd Orchestrator.jobs Orchestrator.id].
  eexists. split; [apply lookup_insert_eq|].
  destruct initialContext, permissions; repeat split.
Qed.

(** ** Event bus *)

Section EventBusFacts.
Import EventBus.

(** An event that [emit] returns is the one [createEvent] built. *)
Lemma emit_returns_created b type payload source parentContext uuid now b' e :
  emit b type payload source parentContext uuid now = (b', JS.Return e) →
  e = createEvent type payload (default "system" source) parentContext uuid now.
Proof.
  unfold emit.
  destruct (emitter_emit _ type _) as [b1 [[]|err]]; [|discriminate].
  destruct (emitter_emit b1 "*" _) as [b2 [[]|err]]; [|discriminate].
  by intros [= _ <-].
Qed.

Lemma createEvent_own_ids type payload source parentContext uuid now :
  let e := createEvent type payload source parentContext uuid now in
  spanId (trace e) = uuid ∧ id e = uuid.
Proof. split; reflexivity. Qed.

(** A new trace starts when there is no parent context. *)
Lemma createEvent_new_trace type payload source uuid now :
  traceId (trace (createEvent type payload source None uuid now)) = uuid.
Proof. reflexivity. Qed.

(** The trace id of an event is not empty when its span id is not. *)
Lemma createEvent_traceId_truthy type payload source parentContext uuid now :
  uuid ≠ EmptyString →
  JS.truthy
    (traceId (trace (createEvent type payload source parentContext uuid now)))
  = true.
Proof.
  intros Huuid. unfold createEvent. cbn [trace traceId].
  assert (Htruthy : JS.truthy uuid = true) by (by destruct uuid).
  unfold or_else.
  destruct (partial_traceId _) as [s|]; [|exact Htruthy].
  destruct (JS.truthy s) eqn:Hs; [exact Hs | exact Htruthy].
Qed.

Lemma createEvent_child type payload source (parent : Event) uuid now :
  JS.truthy (traceId (trace parent)) = true →
  let e := createEvent type payload source
             (Some (as_partial (trace parent))) uuid now in
  traceId (trace e) = traceId (trace parent)
  ∧ parentId (trace e) = Some (spanId (trace parent)).
Proof.
  intros Htruthy. cbn. unfold or_else. rewrite Htruthy. done.
Qed.

(** Every wrapped listener is called, whatever the ones before it did, and
    the loop ends normally. *)
Lemma dispatch_wrapped ls e : ∀ b,
  all_wrapped ls →
  ∃ b', dispatch ls e b = (b', JS.Return tt)
        ∧ called b' = (called b ++ calls_of e ls)%list.
Proof.
  induction ls as [|l rest IH]; intros b Hall.
  - exists b. cbn. by rewrite app_nil_r.
  - inversion Hall as [|? ? Hl Hrest]; subst.
    destruct l as [type h|h]; [|done].
    cbn [dispatch invoke].
    destruct (behaviour h e) as [|err|err];
      match goal with |- context [dispatch rest e ?b1] =>
        destruct (IH b1 Hrest) as (b' & -> & Hcalled)
      end; exists b'; (split; [done|]); rewrite Hcalled; cbn;
      by rewrite <- app_assoc.
Qed.

End EventBusFacts.

(** C6.  An event emitted without a parent trace context starts a trace of
    its own: its trace id is its span id, which is its id.  An event [B]
    emitted with the trace of an earlier emitted event [A] as parent context
    is in [A]'s trace and has [A]'s id as parent id.  (The ids that
    [uuidv4()] draws are not empty.) *)
Theorem emitted_events_are_causally_linked :
  (∀ b type payload source uuid now b' e,
     EventBus.emit b type payload source None uuid now = (b', JS.Return e) →
     EventBus.traceId (EventBus.trace e) = EventBus.spanId (EventBus.trace e)
     ∧ EventBus.spanId (EventBus.trace e) = EventBus.id e)
  ∧ (∀ bA typeA payloadA sourceA parentA uuidA nowA bA' A
       bB typeB payloadB sourceB uuidB nowB bB' B,
       uuidA ≠ EmptyString →
       EventBus.emit bA typeA payloadA sourceA parentA uuidA nowA
         = (bA', JS.Return A) →
       EventBus.emit bB typeB payloadB sourceB
         (Some (EventBus.as_partial (EventBus.trace A))) uuidB nowB
         = (bB', JS.Return B) →
       EventBus.traceId (EventBus.trace B) = EventBus.traceId (EventBus.trace A)
       ∧ EventBus.parentId (EventBus.trace B) = Some (EventBus.id A)).
Proof.
  split.
  - intros b type payload source uuid now b' e He.
    apply emit_returns_created in He as ->. split; reflexivity.
  - intros bA typeA payloadA sourceA parentA uuidA nowA bA' A
      bB typeB payloadB sourceB uuidB nowB bB' B HuuidA HA HB.
    apply emit_returns_created in HA. apply emit_returns_created in HB.
    rewrite HB. 
    destruct (createEvent_child typeB payloadB (default "system" sourceB) A uuidB nowB)
      as [Htrace Hparent].
    { rewrite HA. by apply createEvent_traceId_truthy. }
    split; [exact Htrace|]. rewrite Hparent, HA. reflexivity.
Qed.

Lemma emitted_events_are_causally_linked_witness :
  let bus := EventBus.on EventBus.createEventBus "test:event"
               (EventBus.mkHandler "listener" (λ _, EventBus.Completes)) in
  ∃ b1 A b2 B,
    EventBus.emit bus "test:event" (JS.Obj [("foo", JS.Str "bar")])
      (Some "test-suite") None "span-a" 1 = (b1, JS.Return A)
    ∧ EventBus.emit b1 "child:event" (JS.Obj [("baz", JS.Num 1)])
        (Some "child-source") (Some (EventBus.as_partial (EventBus.trace A)))
        "span-b" 2 = (b2, JS.Return B)
    ∧ EventBus.traceId (EventBus.trace A) = EventBus.id A
    ∧ EventBus.traceId (EventBus.trace B) = EventBus.traceId (EventBus.trace A)
    ∧ EventBus.parentId (EventBus.trace B) = Some (EventBus.id A).
Proof.
  intros bus.
  destruct (EventBus.emit bus "test:event" (JS.Obj [("foo", JS.Str "bar")])
              (Some "test-suite") None "span-a" 1) as [b1 [A|err]] eqn:HA;
    [|vm_compute in HA; discriminate].
  destruct (EventBus.emit b1 "child:event" (JS.Obj [("baz", JS.Num 1)])
              (Some "child-source")
              (Some (EventBus.as_partial (EventBus.trace A))) "span-b" 2)
    as [b2 [B|err]] eqn:HB.
  - exists b1, A, b2, B.
    destruct emitted_events_are_causally_linked as [Hroot Hchild].
    destruct (Hroot _ _ _ _ _ _ _ _ HA) as [Hspan Hid].
    destruct (Hchild _ _ _ _ _ _ _ _ _ _ _ _ _ _ _ _ _
                (ltac:(discriminate) : "span-a" ≠ EmptyString) HA HB)
      as [Htrace Hparent].
    split; [first [exact HA | reflexivity]|].
    split; [first [exact HB | reflexivity]|].
    split; [congruence|]. split; assumption.
  - exfalso. vm_compute in HA. injection HA as <- <-.
    vm_compute in HB. discriminate.
Defined.

Section EventBusIsolation.
Import EventBus.

Lemma invoke_listeners l e b : listeners (invoke l e b).1 = listeners b.
Proof. destruct l as [type h|h]; cbn; destruct (behaviour h e); reflexivity. Qed.

Lemma dispatch_listeners ls e : ∀ b, listeners (dispatch ls e b).1 = listeners b.
Proof.
  induction ls as [|l rest IH]; intros b; [reflexivity|].
  cbn [dispatch]. pose proof (invoke_listeners l e b) as Hl.
  destruct (invoke l e b) as [b1 [[]|err]]; cbn [fst] in *.
  - by rewrite IH.
  - exact Hl.
Qed.

(** Subscribers registered through [on] cannot make [emit] throw: when
    the listeners of the event's type and of ["*"] are all wrapped (and
    the emitter has a listener for an ["error"] event), [emit] returns
    the event and every one of these listeners has been called. *)
Lemma emit_with_wrapped_listeners b type payload source parentContext uuid now :
  let typed := default [] (listeners b !! type) in
  let any := default [] (listeners b !! "*") in
  let e := createEvent type payload (default "system" source)
             parentContext uuid now in
  all_wrapped typed → all_wrapped any →
  (type = "error" → typed ≠ []) →
  ∃ b', emit b type payload source parentContext uuid now = (b', JS.Return e)
        ∧ called b' = (called b ++ calls_of e (typed ++ any))%list.
Proof.
  intros typed any e Htyped Hany Herror. unfold emit. fold e.
  set (b0 := log b _).
  assert (Hemit : ∀ bx key,
            listeners bx = listeners b →
            all_wrapped (default [] (listeners b !! key)) →
            (key = "error" → default [] (listeners b !! key) ≠ []) →
            ∃ b', emitter_emit bx key e = (b', JS.Return tt)
                  ∧ listeners b' = listeners b
                  ∧ called b'
                    = (called bx
                       ++ calls_of e (default [] (listeners b !! key)))%list).
  { intros bx key Hsame Hall Hne. unfold emitter_emit. rewrite Hsame.
    destruct (default [] (listeners b !! key)) as [|l ls] eqn:Hls.
    - case_bool_decide as Hname; [by destruct (Hne Hname)|].
      exists bx. cbn. by rewrite app_nil_r.
    - destruct (dispatch_wrapped (l :: ls) e bx Hall) as (b' & Hd & Hcalled).
      exists b'. split; [exact Hd|]. split; [|exact Hcalled].
      pose proof (dispatch_listeners (l :: ls) e bx) as Hl.
      rewrite Hd in Hl. cbn [fst] in Hl. congruence. }
  destruct (Hemit b0 type eq_refl Htyped Herror) as (b1 & -> & Hl1 & Hc1).
  destruct (Hemit b1 "*" Hl1 Hany) as (b2 & -> & _ & Hc2); [discriminate|].
  exists b2. split; [reflexivity|].
  rewrite Hc2, Hc1. unfold calls_of. rewrite List.map_app, app_assoc. reflexivity.
Qed.

End EventBusIsolation.

(** C7, the code at the failing input.  A handler registered with [onAny]
    is called bare: when it throws, [emit] throws with it and the catch-all
    handlers registered after it are not called; nothing is logged about
    the error. *)
Example onAny_handler_exception_reaches_emitter :
  let failing := EventBus.mkHandler "failing" (λ _, EventBus.Throws "boom") in
  let accounting := EventBus.mkHandler "accounting" (λ _, EventBus.Completes) in
  let bus := EventBus.onAny (EventBus.onAny EventBus.createEventBus failing)
               accounting in
  let outcome :=
    EventBus.emit bus "job_started" (JS.Obj [("jobId", JS.Str "job-1")])
      None None "span-1" 0 in
  outcome.2 = JS.Throw "boom"
  ∧ EventBus.called outcome.1 = [("failing", "span-1")]
  ∧ EventBus.logged outcome.1 = [EventBus.debug "[Event] job_started | Trace: span-1"].
Proof. cbn zeta. repeat split; vm_compute; reflexivity. Qed.

(** The same two handlers registered with [on]: the exception is caught and
    logged, the second handler runs, and [emit] returns the event. *)
Example on_handler_exception_is_contained :
  let failing := EventBus.mkHandler "failing" (λ _, EventBus.Throws "boom") in
  let accounting := EventBus.mkHandler "accounting" (λ _, EventBus.Completes) in
  let bus := EventBus.on (EventBus.on EventBus.createEventBus "job_started" failing)
               "job_started" accounting in
  let outcome :=
    EventBus.emit bus "job_started" (JS.Obj [("jobId", JS.Str "job-1")])
      None None "span-1" 0 in
  (∃ e, outcome.2 = JS.Return e)
  ∧ EventBus.called outcome.1 = [("failing", "span-1"); ("accounting", "span-1")]
  ∧ EventBus.logged outcome.1
    = [EventBus.debug "[Event] job_started | Trace: span-1";
       EventBus.error "Error in handler for job_started" "boom" "span-1"].
Proof. cbn zeta. split; [eexists|split]; vm_compute; reflexivity. Qed.

(** ** Optimization pipeline *)

Section PipelineFacts.
Import Pipeline.







End PipelineFacts.



(** ** Model gateway *)

Section GatewayFacts.
Import Gateway.

Variable deps : Deps.






End GatewayFacts.

(** C4.  When the request carries a (non-empty) task type for which the
    pipeline has an active function, [call] invokes that function on the
    request's messages.  If it returns, the answer is built from its result
    and tagged with model ["deterministic"], provider ["internal"], zero
    tokens and zero cost, and no provider queue is reached.  The provider
    path is taken only if the function throws, and then it is taken. *)
Theorem active_substitute_bypasses_provider
    (deps : Gateway.Deps) (request : Gateway.ModelRequest)
    (jobId : option string) (startTime endTime : Z)
    (pipeline : Pipeline.State) (task : string)
    (record : Pipeline.DeterministicFunction) :
  Gateway.optimizationPipeline deps = Some pipeline →
  Gateway.taskType request = Some task →
  JS.truthy task = true →
  Pipeline.activeFunctions pipeline !! task = Some record →
  let response := (Gateway.call deps request jobId startTime endTime).1 in
  let effects := (Gateway.call deps request jobId startTime endTime).2 in
  match Pipeline.apply (Pipeline.implementation record) (Gateway.messages request) with
  | JS.Return result =>
      response = Gateway.bypass_response result (endTime - startTime)
      ∧ Gateway.success response = true
      ∧ (Gateway.meta_provider <$> Gateway.meta response) = Some "internal"
      ∧ (Gateway.usage_cost ∘ Gateway.usage <$> Gateway.meta response) = Some 0%Qc
      ∧ Gateway.contacts_provider effects = false
  | JS.Throw message =>
      response = (Gateway.provider_path deps request jobId startTime endTime).1
      ∧ effects
        = Gateway.logger_error
            ("Deterministic bypass failed for " ++ task ++ ": " ++ message
             ++ ". Falling back to LLM.")
          :: (Gateway.provider_path deps request jobId startTime endTime).2
  end.
Proof.
  intros Hpipeline Htask Htruthy Hactive. cbn zeta. unfold Gateway.call.
  rewrite Htask, Hpipeline, Htruthy. unfold Pipeline.getOptimizedFunction.
  rewrite Hactive.
  destruct (Pipeline.apply _ _) as [result|message]; [done|].
  by destruct (Gateway.provider_path _ _ _ _ _).
Qed.

Lemma active_substitute_bypasses_provider_witness :
  let optimizedFn := Pipeline.mkFunction "(messages) => 'DET_RESULT'"
                       (λ _, JS.Return (JS.Str "DET_RESULT")) in
  let pipeline := (Pipeline.registerFunction (Pipeline.new None) "bypass_task"
                     optimizedFn true 17).1 in
  let deps := Gateway.mkDeps ∅ ∅ false false (Some pipeline) in
  let request :=
    Gateway.mkRequest "gpt-4"
      (JS.Arr [JS.Obj [("role", JS.Str "user"); ("content", JS.Str "test")]])
      None (Some "bypass_task") in
  let response := (Gateway.call deps request None 100 101).1 in
  response = Gateway.bypass_response (JS.Str "DET_RESULT") 1
  ∧ Gateway.success response = true
  ∧ (Gateway.content <$> Gateway.data response) = Some (Some "DET_RESULT")
  ∧ Gateway.contacts_provider (Gateway.call deps request None 100 101).2 = false.
Proof.
  intros optimizedFn pipeline deps request response.
  pose proof (active_substitute_bypasses_provider deps request None 100 101
                pipeline "bypass_task"
                (Pipeline.mkDeterministic "fn_17_bypass_task" "bypass_task"
                   "(messages) => 'DET_RESULT'" [] (JS.num 1.0) optimizedFn)
                eq_refl eq_refl eq_refl) as Hbypass.
  cbn zeta in Hbypass.
  destruct Hbypass as (Hresponse & Hsuccess & _ & _ & Hquiet);
    [vm_compute; reflexivity|].
  split; [exact Hresponse|]. split; [exact Hsuccess|].
  split; [|exact Hquiet]. subst response. rewrite Hresponse. reflexivity.
Defined.




Section GatewayCost.
Import Gateway.

Variable deps : Deps.



End GatewayCost.




(** [toFixed6] is rounding to the nearest millionth: below [10^21] in
    magnitude its result is a whole number of millionths, at most half a
    millionth away from its argument. *)
Lemma toFixed6_rounds (x : Qc) :
  (Qabs x < inject_Z (10 ^ 21))%Q →
  ∃ n : Z,
    Gateway.toFixed6 x = Q2Qc (inject_Z n / inject_Z (10 ^ 6))
    ∧ (Qabs (Gateway.toFixed6 x - x)%Qc <= 1 # 2000000)%Q.
Proof.
  intros Hsmall. unfold Gateway.toFixed6.
  destruct (Qle_bool (inject_Z (10 ^ 21)) (Qabs x)) eqn:Hbig.
  { apply Qle_bool_iff in Hbig. lra. }
  clear Hsmall Hbig.
  set (n := Qfloor (Qabs x * inject_Z (10 ^ 6) + (1 # 2))).
  pose proof (Qfloor_le (Qabs x * inject_Z (10 ^ 6) + (1 # 2))) as Hlow.
  pose proof (Qlt_floor (Qabs x * inject_Z (10 ^ 6) + (1 # 2))) as Hhigh.
  fold n in Hlow, Hhigh. rewrite inject_Z_plus in Hhigh.
  change (inject_Z 1) with 1%Q in Hhigh.
  assert (Hdiv : ∀ m, inject_Z m / inject_Z (10 ^ 6) == inject_Z m * (1 # 1000000))
    by (intros m; reflexivity).
  assert (Hscale : inject_Z (10 ^ 6) == 1000000) by reflexivity.
  rewrite Hscale in Hlow, Hhigh.
  assert (Hopp : inject_Z (- n) == - inject_Z n)
    by (rewrite inject_Z_opp; reflexivity).
  destruct (Qle_bool 0 x) eqn:Hsign.
  - apply Qle_bool_iff in Hsign. exists n. split; [reflexivity|].
    rewrite (Qabs_pos x Hsign) in Hlow, Hhigh.
    unfold Qcminus, Qcplus, Qcopp, Q2Qc. cbn [this].
    rewrite !Qred_correct, Hdiv.
    apply Qabs_Qle_condition. split; lra.
  - assert (Hneg : (x <= 0)%Q).
    { destruct (Qlt_le_dec x 0) as [Hlt|Hge]; [lra|].
      apply Qle_bool_iff in Hge. congruence. }
    exists (- n)%Z. split.
    + apply Qc_is_canon. unfold Qcopp, Q2Qc. cbn [this].
      rewrite !Qred_correct, !Hdiv, Hopp. lra.
    + rewrite (Qabs_neg x Hneg) in Hlow, Hhigh.
      unfold Qcminus, Qcplus, Qcopp, Q2Qc. cbn [this].
      rewrite !Qred_correct, Hdiv.
      apply Qabs_Qle_condition. split; lra.
Qed.
